(** * data-insight-dashboard: the Flask dashboard of [main.py]

    A shallow embedding of the module [main.py]: the metric provider
    [get_real_time_data], the chart serializer [plot_to_json] and the two
    route handlers [index] and [update_data].

    Python's exceptions and the text written by [print] are threaded
    through a small state-and-exception monad.  Global names are looked up
    in the namespace that the module's own top-level statements build, as
    the interpreter does when a function body runs. *)

From Stdlib Require Import String Ascii List ZArith.
From Stdlib Require Import DecimalString.
Import ListNotations.
Open Scope string_scope.

(** ** Exceptions *)

(** The subclasses of [Exception] that the modelled code and libraries
    raise.  [OtherError cls msg] stands for any further subclass. *)
Inductive exn : Type :=
| ValueError (msg : string)
| NameError (name : string)
| TemplateNotFound (name : string)
| OtherError (cls msg : string).

(** [str(e)], as the f-strings of the handlers format it. *)
Definition str (e : exn) : string :=
  match e with
  | ValueError msg => msg
  | NameError name => "name '" ++ name ++ "' is not defined"
  | TemplateNotFound name => name
  | OtherError _ msg => msg
  end.

(** ** The monad: standard output and exceptions *)

Definition stdout := list string.

Inductive outcome (A : Type) : Type :=
| Return (a : A)
| Raise (e : exn).
Arguments Return {A} a.
Arguments Raise {A} e.

Definition M (A : Type) : Type := stdout -> outcome A * stdout.

Definition ret {A} (a : A) : M A := fun out => (Return a, out).

Definition bind {A B} (m : M A) (k : A -> M B) : M B :=
  fun out =>
    match m out with
    | (Return a, out') => k a out'
    | (Raise e, out') => (Raise e, out')
    end.

Definition raise {A} (e : exn) : M A := fun out => (Raise e, out).

(** [print(s)] appends one line to standard output. *)
Definition print (s : string) : M unit := fun out => (Return tt, (out ++ [s])%list).

(** [try: body  except Exception as e: handler e]. *)
Definition try_except {A} (body : M A) (handler : exn -> M A) : M A :=
  fun out =>
    match body out with
    | (Return a, out') => (Return a, out')
    | (Raise e, out') => handler e out'
    end.

Declare Scope py_scope.
Delimit Scope py_scope with py.
Notation "x <- m ;; k" := (bind m (fun x => k))
  (at level 61, m at next level, right associativity) : py_scope.
Notation "m ;; k" := (bind m (fun _ => k))
  (at level 61, right associativity) : py_scope.
Open Scope py_scope.

(** ** The module's global namespace *)

(** The top-level statements of a module, as far as they bind names. *)
Inductive stmt : Type :=
| FromImport (module : string) (names : list string)
| ImportAs (module alias : string)
| Import (module : string)
| Assign (name : string)
| Def (name : string).

(** The part of a dotted module path before its first dot. *)
Fixpoint top_package (module : string) : string :=
  match module with
  | EmptyString => EmptyString
  | String c rest =>
      if Ascii.eqb c "."%char then EmptyString else String c (top_package rest)
  end.

(** The names a statement binds.  [import a.b as c] binds [c] only;
    [import a.b] binds the top-level package [a]. *)
Definition binds (s : stmt) : list string :=
  match s with
  | FromImport _ names => names
  | ImportAs _ alias => [alias]
  | Import module => [top_package module]
  | Assign name => [name]
  | Def name => [name]
  end.

Definition namespace_of (prog : list stmt) : list string := flat_map binds prog.

(** The top-level statements of [main.py], in order. *)
Definition module_source : list stmt :=
  [ FromImport "flask" ["Flask"; "render_template"; "jsonify"; "request"];
    ImportAs "pandas" "pd";
    ImportAs "plotly.express" "px";
    ImportAs "plotly.graph_objs" "go";
    Import "json";
    Import "requests";
    Assign "app";
    Def "get_real_time_data";
    Def "index";
    Def "plot_to_json";
    Def "update_data" ].

Definition module_globals : list string := namespace_of module_source.

(** The builtins the module refers to. *)
Definition builtins : list string := ["print"; "Exception"; "ValueError"].

Definition bound (globals : list string) (name : string) : bool :=
  existsb (String.eqb name) globals || existsb (String.eqb name) builtins.

(** Loading a global name: [NameError] when neither the module nor the
    builtins bind it. *)
Definition resolve (globals : list string) (name : string) : M unit :=
  if bound globals name then ret tt else raise (NameError name).

(** ** Metric tables: pandas data frames *)

Inductive cell : Type :=
| CStr (s : string)
| CInt (n : Z).

(** A dict of columns, in insertion order. *)
Definition columns := list (string * list cell).

Record DataFrame : Type := mkDataFrame
  { df_rows : nat;
    df_columns : columns }.

(** [df.empty]: some axis has length zero. *)
Definition empty (df : DataFrame) : bool :=
  Nat.eqb (df_rows df) 0 || Nat.eqb (length (df_columns df)) 0.

(** [pd.DataFrame()]. *)
Definition empty_frame : DataFrame := mkDataFrame 0 [].

Fixpoint column (name : string) (cols : columns) : option (list cell) :=
  match cols with
  | [] => None
  | (n, cs) :: rest => if String.eqb n name then Some cs else column name rest
  end.

(** ** Chart descriptions and their JSON encoding *)

#[warnings="-register-all"]
Inductive json : Type :=
| JStr (s : string)
| JInt (n : Z)
| JArr (items : list json)
| JObj (fields : list (string * json)).

Record Figure : Type := mkFigure
  { fig_x : list cell;
    fig_y : list cell;
    fig_title : string }.

Definition dq : string := String "034"%char EmptyString.

(** String escaping of [json.dumps]: the quote and the backslash.  Control
    and non-ASCII characters, which no string of the module contains, are
    left as they are. *)
Fixpoint escape (s : string) : string :=
  match s with
  | EmptyString => EmptyString
  | String c rest =>
      if Ascii.eqb c "034"%char then String "092"%char (String c (escape rest))
      else if Ascii.eqb c "092"%char then String "092"%char (String c (escape rest))
      else String c (escape rest)
  end.

Definition quoted (s : string) : string := dq ++ escape s ++ dq.

Definition string_of_Z (n : Z) : string := NilZero.string_of_int (Z.to_int n).

Fixpoint join (sep : string) (parts : list string) : string :=
  match parts with
  | [] => EmptyString
  | [p] => p
  | p :: rest => p ++ sep ++ join sep rest
  end.

(** [json.dumps] with its default separators. *)
Fixpoint json_dumps (j : json) : string :=
  match j with
  | JStr s => quoted s
  | JInt n => string_of_Z n
  | JArr items => "[" ++ join ", " (map json_dumps items) ++ "]"
  | JObj fields =>
      "{" ++ join ", "
               (map (fun kv => quoted (fst kv) ++ ": " ++ json_dumps (snd kv)) fields)
          ++ "}"
  end.

Definition json_of_cell (c : cell) : json :=
  match c with
  | CStr s => JStr s
  | CInt n => JInt n
  end.

(** The fields of the encoded figure that the client reads: a [data] array
    holding the single bar trace, and the [layout] with the title. *)
Definition encode_figure (fig : Figure) : json :=
  JObj [ ("data", JArr [ JObj [ ("type", JStr "bar");
                                ("x", JArr (map json_of_cell (fig_x fig)));
                                ("y", JArr (map json_of_cell (fig_y fig))) ] ]);
         ("layout", JObj [ ("title", JObj [ ("text", JStr (fig_title fig)) ]) ]) ].

(** ** The libraries the module calls *)

(** [pd.DataFrame] (called with a dict of columns, or with no argument) and
    [px.bar] are the calls that leave the module.  The handlers are defined
    over any behaviour of the two, so that a failing data source can be put
    in their place. *)
Class Libs : Type := mkLibs
  { pd_DataFrame : option columns -> M DataFrame;
    px_bar : DataFrame -> string -> string -> string -> M Figure }.

(** pandas: columns of one length make a frame of that many rows. *)
Definition pandas_DataFrame (data : option columns) : M DataFrame :=
  match data with
  | None => ret empty_frame
  | Some [] => ret empty_frame
  | Some ((n, cs) :: rest) =>
      if forallb (fun c => Nat.eqb (length (snd c)) (length cs)) rest
      then ret (mkDataFrame (length cs) ((n, cs) :: rest))
      else raise (ValueError "All arrays must be of the same length")
  end.

Definition repr_names (cols : columns) : string :=
  "[" ++ join ", " (map (fun c => "'" ++ fst c ++ "'") cols) ++ "]".

Definition not_a_column (arg : string) (cols : columns) (name : string) : exn :=
  ValueError ("Value of '" ++ arg ++ "' is not the name of a column in 'data_frame'. "
              ++ "Expected one of " ++ repr_names cols ++ " but received: " ++ name).

(** plotly express: one bar trace over the two named columns. *)
Definition plotly_express_bar (df : DataFrame) (x y title : string) : M Figure :=
  match column x (df_columns df) with
  | None => raise (not_a_column "x" (df_columns df) x)
  | Some xs =>
      match column y (df_columns df) with
      | None => raise (not_a_column "y" (df_columns df) y)
      | Some ys => ret (mkFigure xs ys title)
      end
  end.

Definition installed : Libs := mkLibs pandas_DataFrame plotly_express_bar.

(** ** Flask: responses and templates *)

Inductive body : Type :=
| Html (page : string)
| Text (message : string)
| Json (j : json).

Record Response : Type := mkResponse
  { status : nat;
    payload : body }.

(** A template: literal text and [{{ name | safe }}] substitutions. *)
Inductive piece : Type :=
| Lit (text : string)
| Safe (name : string).

Fixpoint lookup (name : string) (context : list (string * string)) : string :=
  match context with
  | [] => EmptyString
  | (n, v) :: rest => if String.eqb n name then v else lookup name rest
  end.

Definition render_piece (context : list (string * string)) (p : piece) : string :=
  match p with
  | Lit text => text
  | Safe name => lookup name context
  end.

Definition render (t : list piece) (context : list (string * string)) : string :=
  String.concat EmptyString (map (render_piece context) t).

Definition nl : string := String "010"%char EmptyString.

Definition q (s : string) : string := dq ++ s ++ dq.

Definition lines (ls : list string) : string := String.concat nl ls.

Definition index_html_head : string :=
  lines
    [ "<!doctype html>";
      "<html lang=" ++ q "en" ++ ">";
      "<head>";
      "    <meta charset=" ++ q "UTF-8" ++ ">";
      "    <meta name=" ++ q "viewport" ++ " content="
        ++ q "width=device-width, initial-scale=1.0" ++ ">";
      "    <title>Data Insight Dashboard</title>";
      "    <script src=" ++ q "https://cdn.plot.ly/plotly-latest.min.js" ++ "></script>";
      "</head>";
      "<body>";
      "    <h1>Data Insight Dashboard</h1>";
      "    <div id=" ++ q "dashboard" ++ "></div>";
      "";
      "    <button onclick=" ++ q "updateDashboard()" ++ ">Update Data</button>";
      "";
      "    <script>";
      "        // Initial load of the dashboard with embedded Plotly graph";
      "        var graphs_json = JSON.parse('" ].

Definition index_html_tail : string :=
  lines
    [ "');";
      "        Plotly.newPlot('dashboard', graphs_json.data, graphs_json.layout);";
      "";
      "        // Function to dynamically update the dashboard";
      "        function updateDashboard() {";
      "            fetch('/update_data', {";
      "                method: 'POST'";
      "            })";
      "            .then(response => response.json())";
      "            .then(data => {";
      "                if (data.error) {";
      "                    alert(data.error);";
      "                } else {";
      "                    var graphs_json = JSON.parse(data.graphs_json);";
      "                    Plotly.newPlot('dashboard', graphs_json.data, graphs_json.layout);";
      "                }";
      "            })";
      "            .catch(error => console.error('Error updating dashboard:', error));";
      "        }";
      "    </script>";
      "</body>";
      "</html>" ].

(** [templates/index.html]. *)
Definition index_html : list piece :=
  [ Lit index_html_head; Safe "graphs_json"; Lit index_html_tail ].

Definition templates : list (string * list piece) := [ ("index.html", index_html) ].

Fixpoint find_template (name : string) (folder : list (string * list piece))
  : option (list piece) :=
  match folder with
  | [] => None
  | (n, t) :: rest => if String.eqb n name then Some t else find_template name rest
  end.

Definition render_template (name : string) (context : list (string * string))
  : M string :=
  match find_template name templates with
  | Some t => ret (render t context)
  | None => raise (TemplateNotFound name)
  end.

(** [jsonify] of a dict of strings. *)
Definition jsonify (fields : list (string * string)) : json :=
  JObj (map (fun kv => (fst kv, JStr (snd kv))) fields).

(** The page that [index.html] renders to around a serialized chart. *)
Definition page_embedding (chart : string) : string :=
  index_html_head ++ chart ++ index_html_tail.

(** ** The module's functions *)

(** The metrics that [get_real_time_data] hardcodes. *)
Definition data : columns :=
  [ ("metric", [CStr "Sales"; CStr "Profit"; CStr "Customer Satisfaction"]);
    ("value", [CInt 120000; CInt 30000; CInt 85]) ].

Section Handlers.

Context {L : Libs}.

(** The global namespace the function bodies run in. *)
Variable globals : list string.

(** [try: body  except Exception as e: handler e], with the load of the
    name [Exception] that the [except] clause performs. *)
Definition except_Exception {A} (suite : M A) (handler : exn -> M A) : M A :=
  try_except suite (fun e => resolve globals "Exception";; handler e).

Definition get_real_time_data : M DataFrame :=
  except_Exception
    (resolve globals "pd";;
     df <- pd_DataFrame (Some data);;
     ret df)
    (fun e =>
       resolve globals "print";;
       print ("Error fetching data: " ++ str e);;
       resolve globals "pd";;
       pd_DataFrame None).

(** The [try] suite of [plot_to_json]. *)
Definition plot_to_json_suite (df : DataFrame) : M string :=
  if empty df then
    resolve globals "ValueError";;
    raise (ValueError "DataFrame is empty")
  else
    resolve globals "px";;
    fig <- px_bar df "metric" "value" "Business KPI Dashboard";;
    resolve globals "json";;
    resolve globals "plotly";;
    ret (json_dumps (encode_figure fig)).

Definition plot_to_json (df : DataFrame) : M string :=
  except_Exception
    (plot_to_json_suite df)
    (fun e =>
       resolve globals "print";;
       print ("Error generating plot: " ++ str e);;
       resolve globals "json";;
       ret (json_dumps (JObj []))).

(** GET / *)
Definition index : M Response :=
  except_Exception
    (resolve globals "get_real_time_data";;
     df <- get_real_time_data;;
     resolve globals "plot_to_json";;
     graphs_json <- plot_to_json df;;
     resolve globals "render_template";;
     page <- render_template "index.html" [("graphs_json", graphs_json)];;
     ret (mkResponse 200 (Html page)))
    (fun e => ret (mkResponse 500 (Text ("Error loading dashboard: " ++ str e)))).

(** POST /update_data *)
Definition update_data : M Response :=
  except_Exception
    (resolve globals "get_real_time_data";;
     df <- get_real_time_data;;
     resolve globals "plot_to_json";;
     graphs_json <- plot_to_json df;;
     resolve globals "jsonify";;
     ret (mkResponse 200 (Json (jsonify [("graphs_json", graphs_json)]))))
    (fun e =>
       resolve globals "jsonify";;
       ret (mkResponse 500 (Json (jsonify [("error", "Error updating data: " ++ str e)])))).

End Handlers.

Arguments get_real_time_data {L} globals.
Arguments plot_to_json_suite {L} globals df.
Arguments plot_to_json {L} globals df.
Arguments index {L} globals.
Arguments update_data {L} globals.

(** A table the serializer accepts: it has rows, a [metric] column of names
    and a [value] column of values. *)
Definition valid_table (df : DataFrame) (names values : list cell) : Prop :=
  empty df = false /\
  column "metric" (df_columns df) = Some names /\
  column "value" (df_columns df) = Some values.

(** The text of a chart whose single series has the given names and values. *)
Definition chart_text (names values : list cell) : string :=
  json_dumps (encode_figure (mkFigure names values "Business KPI Dashboard")).

(** The table that the default provider builds. *)
Definition kpi_table : DataFrame := mkDataFrame 3 data.

(** A table without the [metric] column, on which [px.bar] raises. *)
Definition malformed_table : DataFrame := mkDataFrame 1 [("amount", [CInt 1])].

(** A data source that is down: building the table raises, while the
    argument-free constructor still works. *)
Definition unavailable : Libs :=
  mkLibs (fun d => match d with
                   | Some _ => raise (OtherError "ConnectionError" "data source unavailable")
                   | None => ret empty_frame
                   end)
         plotly_express_bar.

(** [pd.DataFrame()] returns. *)
Definition fallback_returns (L : Libs) : Prop :=
  forall out, exists df out', pd_DataFrame None out = (Return df, out').

(** [pd.DataFrame()] returns the empty frame and prints nothing. *)
Definition fallback_is_empty (L : Libs) : Prop :=
  forall out, pd_DataFrame None out = (Return empty_frame, out).

(** [n] requests served one after the other by the same handler. *)
Fixpoint serve (handler : M Response) (n : nat) (out : stdout)
  : list (outcome Response) * stdout :=
  match n with
  | O => ([], out)
  | S k =>
      let (r, out1) := handler out in
      let (rs, out2) := serve handler k out1 in
      (r :: rs, out2)
  end.

(** The [graphs_json] field of a JSON response. *)
Definition graphs_json_of (r : outcome Response) : option string :=
  match r with
  | Return (mkResponse _ (Json (JObj fields))) =>
      match fields with
      | (k, JStr s) :: _ => if String.eqb k "graphs_json" then Some s else None
      | _ => None
      end
  | _ => None
  end.

(** A table of two other metrics. *)
Definition two_row_table : DataFrame :=
  mkDataFrame 2 [ ("metric", [CStr "Churn"; CStr "Revenue"]);
                  ("value", [CInt 4; CInt 990]);
                  ("region", [CStr "EU"; CStr "US"]) ].

(** Libraries that are out of order altogether: both calls of
    [pd.DataFrame] raise. *)
Definition broken : Libs :=
  mkLibs (fun d => match d with
                   | Some _ => raise (OtherError "ConnectionError" "data source unavailable")
                   | None => raise (OtherError "RuntimeError" "pandas is unusable")
                   end)
         plotly_express_bar.

(** The line that [plot_to_json] prints when the load of [plotly] fails. *)
Definition plotly_line : string := "Error generating plot: name 'plotly' is not defined".

(** ** The client script of [index.html] *)

(** The values the script handles. *)
#[warnings="-register-all"]
Inductive jsval : Type :=
| JsUndefined
| JsNull
| JsBool (b : bool)
| JsNum (n : Z)
| JsStr (s : string)
| JsArr (items : list jsval)
| JsObj (fields : list (string * jsval)).

(** What [response.json()] yields for a body that [jsonify] wrote. *)
Fixpoint of_json (j : json) : jsval :=
  match j with
  | JStr s => JsStr s
  | JInt n => JsNum n
  | JArr items => JsArr (map of_json items)
  | JObj fields => JsObj (map (fun kv => (fst kv, of_json (snd kv))) fields)
  end.

Inductive js_error : Type :=
| JsSyntaxError
| JsTypeError
| FetchFailed.

(** What the script does to the page and the console. *)
Inductive effect : Type :=
| NewPlot (container : string) (traces layout : jsval)
| Alert (message : jsval)
| ConsoleError (label : string) (error : js_error).

(** How [fetch] settles: rejected, or fulfilled with the server's answer. *)
Inductive fetched : Type :=
| Failed
| Answered (r : Response).

(** The value of a key in an object; of a key written twice, the last. *)
Fixpoint field (name : string) (fields : list (string * jsval)) : option jsval :=
  match fields with
  | [] => None
  | (k, v) :: rest =>
      match field name rest with
      | Some w => Some w
      | None => if String.eqb k name then Some v else None
      end
  end.

(** The property read [v.name], for the names the script reads ([error],
    [graphs_json], [data], [layout]), which no prototype defines: a
    [TypeError] on [undefined] and [null], [undefined] where the key is
    missing. *)
Definition member (v : jsval) (name : string) : js_error + jsval :=
  match v with
  | JsUndefined | JsNull => inl JsTypeError
  | JsObj fields =>
      match field name fields with
      | Some w => inr w
      | None => inr JsUndefined
      end
  | _ => inr JsUndefined
  end.

(** The condition of an [if]. *)
Definition truthy (v : jsval) : bool :=
  match v with
  | JsUndefined | JsNull => false
  | JsBool b => b
  | JsNum n => negb (Z.eqb n 0)
  | JsStr s => negb (String.eqb s EmptyString)
  | JsArr _ | JsObj _ => true
  end.

(** The string a value is converted to where a string is expected. *)
Fixpoint to_string (v : jsval) : string :=
  match v with
  | JsUndefined => "undefined"
  | JsNull => "null"
  | JsBool true => "true"
  | JsBool false => "false"
  | JsNum n => string_of_Z n
  | JsStr s => s
  | JsArr items =>
      join ","
        (map (fun item => match item with
                          | JsUndefined | JsNull => EmptyString
                          | _ => to_string item
                          end) items)
  | JsObj _ => "[object Object]"
  end.

Definition console_label : string := "Error updating dashboard:".

Section Client.

(** The browser's [JSON.parse]; [None] is its [SyntaxError]. *)
Variable JSON_parse : string -> option jsval.

(** [response => response.json()] *)
Definition response_json (r : Response) : js_error + jsval :=
  match payload r with
  | Json j => inr (of_json j)
  | Html text | Text text =>
      match JSON_parse text with
      | Some v => inr v
      | None => inl JsSyntaxError
      end
  end.

(** The callback [data => { ... }] of [updateDashboard]. *)
Definition on_data (d : jsval) : js_error + list effect :=
  match member d "error" with
  | inl err => inl err
  | inr error =>
      if truthy error then inr [Alert error]
      else
        match member d "graphs_json" with
        | inl err => inl err
        | inr text =>
            match JSON_parse (to_string text) with
            | None => inl JsSyntaxError
            | Some graphs_json =>
                match member graphs_json "data" with
                | inl err => inl err
                | inr traces =>
                    match member graphs_json "layout" with
                    | inl err => inl err
                    | inr layout => inr [NewPlot "dashboard" traces layout]
                    end
                end
            end
        end
  end.

(** [updateDashboard()], given how the [fetch] of POST /update_data
    settles. *)
Definition updateDashboard (answer : fetched) : list effect :=
  match answer with
  | Failed => [ConsoleError console_label FetchFailed]
  | Answered r =>
      match response_json r with
      | inl err => [ConsoleError console_label err]
      | inr d =>
          match on_data d with
          | inl err => [ConsoleError console_label err]
          | inr effects => effects
          end
      end
  end.

End Client.

(** A parser that knows the empty object only, for use where a concrete
    [JSON.parse] is needed. *)
Definition parse_empty_object (text : string) : option jsval :=
  if String.eqb text "{}" then Some (JsObj []) else None.

(** * Properties *)

(** ** Name resolution in the module *)

Lemma plotly_unbound : bound module_globals "plotly" = false.
Proof. reflexivity. Qed.

Lemma resolve_bound globals name out :
  bound globals name = true -> resolve globals name out = (Return tt, out).
Proof. intros H. unfold resolve. rewrite H. reflexivity. Qed.

Lemma resolve_unbound globals name out :
  bound globals name = false -> resolve globals name out = (Raise (NameError name), out).
Proof. intros H. unfold resolve. rewrite H. reflexivity. Qed.

(** ** The serializer's [try] suite *)

Section Serializer.

Context {L : Libs}.

Lemma suite_empty df out :
  empty df = true ->
  plot_to_json_suite module_globals df out
  = (Raise (ValueError "DataFrame is empty"), out).
Proof.
  intros H. unfold plot_to_json_suite. rewrite H. reflexivity.
Qed.

Lemma suite_bar_raises df out e out1 :
  empty df = false ->
  px_bar df "metric" "value" "Business KPI Dashboard" out = (Raise e, out1) ->
  plot_to_json_suite module_globals df out = (Raise e, out1).
Proof.
  intros H Hbar. unfold plot_to_json_suite. rewrite H.
  unfold bind. rewrite resolve_bound by reflexivity. rewrite Hbar. reflexivity.
Qed.

Lemma suite_bar_returns df out fig out1 :
  empty df = false ->
  px_bar df "metric" "value" "Business KPI Dashboard" out = (Return fig, out1) ->
  plot_to_json_suite module_globals df out = (Raise (NameError "plotly"), out1).
Proof.
  intros H Hbar. unfold plot_to_json_suite. rewrite H.
  unfold bind. rewrite resolve_bound by reflexivity. rewrite Hbar.
  rewrite resolve_bound by reflexivity.
  rewrite resolve_unbound by reflexivity. reflexivity.
Qed.

Lemma suite_raises df out :
  exists e out1, plot_to_json_suite module_globals df out = (Raise e, out1).
Proof.
  destruct (empty df) eqn:Hempty.
  - eexists _, _. apply suite_empty; assumption.
  - destruct (px_bar df "metric" "value" "Business KPI Dashboard" out)
      as [[fig | e] out1] eqn:Hbar.
    + eexists _, _. eapply suite_bar_returns; eassumption.
    + eexists _, _. eapply suite_bar_raises; eassumption.
Qed.

Lemma handler_replaces df out e out1 :
  plot_to_json_suite module_globals df out = (Raise e, out1) ->
  plot_to_json module_globals df out
  = (Return "{}", (out1 ++ [("Error generating plot: " ++ str e)%string])%list).
Proof.
  intros H. unfold plot_to_json, except_Exception, try_except. rewrite H.
  reflexivity.
Qed.

Lemma plot_to_json_returns_sentinel df out :
  exists out1, plot_to_json module_globals df out = (Return "{}", out1).
Proof.
  destruct (suite_raises df out) as (e & out1 & H).
  eexists. apply handler_replaces. exact H.
Qed.

End Serializer.

(** The sentinel is not the text of any chart. *)
Lemma sentinel_is_no_chart fig : json_dumps (encode_figure fig) <> "{}".
Proof. cbn. discriminate. Qed.

(** Had the module bound the name [plotly], the suite would reach the
    encoder and the table's series would be serialized in order. *)
Lemma serializer_with_plotly_bound df names values out :
  valid_table df names values ->
  plot_to_json (L := installed) (namespace_of (Import "plotly" :: module_source)) df out
  = (Return (chart_text names values), out).
Proof.
  intros (Hempty & Hx & Hy).
  unfold plot_to_json, except_Exception, try_except, plot_to_json_suite.
  rewrite Hempty. unfold bind.
  rewrite resolve_bound by reflexivity.
  unfold px_bar, installed, plotly_express_bar. rewrite Hx, Hy.
  reflexivity.
Qed.

(** ** The chart serializer *)

(** C1 (the code departs from the claim).  On the provider's own table, a
    valid non-empty Metric Table with names Sales, Profit, Customer
    Satisfaction and values 120000, 30000, 85, [plot_to_json] returns the
    empty-object text and prints a name error for [plotly]; that text is not
    the chart carrying the table's names and values. *)
Theorem plot_to_json_kpi_table_sentinel :
  valid_table kpi_table
    [CStr "Sales"; CStr "Profit"; CStr "Customer Satisfaction"]
    [CInt 120000; CInt 30000; CInt 85] /\
  plot_to_json (L := installed) module_globals kpi_table []
  = (Return "{}", ["Error generating plot: name 'plotly' is not defined"]) /\
  chart_text [CStr "Sales"; CStr "Profit"; CStr "Customer Satisfaction"]
             [CInt 120000; CInt 30000; CInt 85] <> "{}".
Proof.
  split; [| split].
  - repeat split.
  - reflexivity.
  - apply sentinel_is_no_chart.
Qed.

(** C3.  For an empty Metric Table, [plot_to_json] returns the empty-object
    sentinel; it does not raise, whatever the libraries do, and prints the
    one diagnostic line. *)
Theorem plot_to_json_empty_table {L : Libs} df out :
  empty df = true ->
  plot_to_json module_globals df out
  = (Return "{}", (out ++ ["Error generating plot: DataFrame is empty"])%list).
Proof.
  intros H. rewrite (handler_replaces df out _ out (suite_empty df out H)).
  reflexivity.
Qed.

Lemma plot_to_json_empty_table_witness :
  empty empty_frame = true /\
  plot_to_json (L := installed) module_globals empty_frame []
  = (Return "{}", ["Error generating plot: DataFrame is empty"]).
Proof.
  split.
  - reflexivity.
  - apply (@plot_to_json_empty_table installed empty_frame []). reflexivity.
Defined.

(** C8.  An empty table and a table whose processing raises inside the
    serializer give the same returned text, the empty-object sentinel: the
    caller cannot tell the two cases apart from the result. *)
Theorem plot_to_json_conflates_empty_and_error {L : Libs} df1 df2 out1 out2 e out2' :
  empty df1 = true ->
  plot_to_json_suite module_globals df2 out2 = (Raise e, out2') ->
  fst (plot_to_json module_globals df1 out1) = Return "{}" /\
  fst (plot_to_json module_globals df2 out2) = Return "{}" /\
  fst (plot_to_json module_globals df1 out1) = fst (plot_to_json module_globals df2 out2).
Proof.
  intros Hempty Hraise.
  rewrite (handler_replaces df1 out1 _ out1 (suite_empty df1 out1 Hempty)).
  rewrite (handler_replaces df2 out2 e out2' Hraise).
  repeat split.
Qed.

Lemma plot_to_json_conflates_empty_and_error_witness :
  fst (plot_to_json (L := installed) module_globals empty_frame []) = Return "{}" /\
  fst (plot_to_json (L := installed) module_globals malformed_table []) = Return "{}" /\
  fst (plot_to_json (L := installed) module_globals empty_frame [])
  = fst (plot_to_json (L := installed) module_globals malformed_table []).
Proof.
  apply (@plot_to_json_conflates_empty_and_error installed
           empty_frame malformed_table [] []
           (not_a_column "x" [("amount", [CInt 1])] "metric") []).
  - reflexivity.
  - reflexivity.
Defined.

(** C9.  For every data frame and every behaviour of the libraries,
    [plot_to_json] returns a string and raises nothing: whatever its suite
    raises is replaced by the serialized empty object, and this includes the
    [NameError] that the load of [plotly] in the serialization call raises
    once [px.bar] has returned. *)
Theorem plot_to_json_never_raises {L : Libs} df out :
  (exists s out1, plot_to_json module_globals df out = (Return s, out1)) /\
  (forall e out1,
      plot_to_json_suite module_globals df out = (Raise e, out1) ->
      plot_to_json module_globals df out
      = (Return "{}", (out1 ++ [("Error generating plot: " ++ str e)%string])%list)) /\
  (forall fig out1,
      empty df = false ->
      px_bar df "metric" "value" "Business KPI Dashboard" out = (Return fig, out1) ->
      plot_to_json_suite module_globals df out = (Raise (NameError "plotly"), out1)).
Proof.
  split; [| split].
  - destruct (plot_to_json_returns_sentinel df out) as [out1 H].
    exists "{}", out1. exact H.
  - intros e out1. apply handler_replaces.
  - intros fig out1. apply suite_bar_returns.
Qed.

Lemma plot_to_json_never_raises_witness :
  plot_to_json_suite (L := installed) module_globals kpi_table []
  = (Raise (NameError "plotly"), []) /\
  plot_to_json (L := installed) module_globals kpi_table []
  = (Return "{}", ["Error generating plot: name 'plotly' is not defined"]).
Proof.
  pose proof (@plot_to_json_never_raises installed kpi_table []) as (_ & Hcaught & Hname).
  pose proof (Hname (mkFigure [CStr "Sales"; CStr "Profit"; CStr "Customer Satisfaction"]
                              [CInt 120000; CInt 30000; CInt 85]
                              "Business KPI Dashboard") []
                    eq_refl eq_refl) as Hsuite.
  split.
  - exact Hsuite.
  - exact (Hcaught _ _ Hsuite).
Defined.

(** ** The metric provider *)

Section Provider.

Context {L : Libs}.

Lemma provider_acquires out df out1 :
  pd_DataFrame (Some data) out = (Return df, out1) ->
  get_real_time_data module_globals out = (Return df, out1).
Proof.
  intros H. unfold get_real_time_data, except_Exception, try_except, bind.
  rewrite resolve_bound by reflexivity. rewrite H. reflexivity.
Qed.

Lemma provider_falls_back out e out1 :
  pd_DataFrame (Some data) out = (Raise e, out1) ->
  get_real_time_data module_globals out
  = pd_DataFrame None (out1 ++ [("Error fetching data: " ++ str e)%string])%list.
Proof.
  intros H. unfold get_real_time_data, except_Exception, try_except, bind.
  rewrite resolve_bound by reflexivity. rewrite H.
  repeat rewrite resolve_bound by reflexivity.
  unfold print.
  rewrite resolve_bound by reflexivity. reflexivity.
Qed.

Lemma provider_returns out :
  fallback_returns L ->
  exists df out1, get_real_time_data module_globals out = (Return df, out1).
Proof.
  intros Hfb.
  destruct (pd_DataFrame (Some data) out) as [[df | e] out1] eqn:H.
  - exists df, out1. apply provider_acquires. exact H.
  - rewrite (provider_falls_back out e out1 H). apply Hfb.
Qed.

End Provider.

Lemma fallback_is_empty_returns (L : Libs) : fallback_is_empty L -> fallback_returns L.
Proof. intros H out. exists empty_frame, out. apply H. Qed.

Lemma installed_fallback : fallback_is_empty installed.
Proof. intros out. reflexivity. Qed.

Lemma unavailable_fallback : fallback_is_empty unavailable.
Proof. intros out. reflexivity. Qed.

(** C6.  [get_real_time_data] takes no argument and always returns a table,
    given that the argument-free [pd.DataFrame()] behaves as in pandas: when
    building the table from the numbers raises, the exception is not
    propagated, one line is printed and the empty table is returned. *)
Theorem get_real_time_data_always_returns {L : Libs} out :
  fallback_is_empty L ->
  (exists df out1, get_real_time_data module_globals out = (Return df, out1)) /\
  (forall e out1,
      pd_DataFrame (Some data) out = (Raise e, out1) ->
      get_real_time_data module_globals out
      = (Return empty_frame, (out1 ++ [("Error fetching data: " ++ str e)%string])%list)).
Proof.
  intros Hfb. split.
  - apply provider_returns. apply fallback_is_empty_returns. exact Hfb.
  - intros e out1 H. rewrite (provider_falls_back out e out1 H). apply Hfb.
Qed.

Lemma get_real_time_data_always_returns_witness :
  get_real_time_data (L := unavailable) module_globals []
  = (Return empty_frame, ["Error fetching data: data source unavailable"]).
Proof.
  pose proof (@get_real_time_data_always_returns unavailable [] unavailable_fallback)
    as (_ & Hfail).
  exact (Hfail (OtherError "ConnectionError" "data source unavailable") [] eq_refl).
Defined.

(** ** The route handlers *)

Lemma render_around head tail chart :
  render [Lit head; Safe "graphs_json"; Lit tail] [("graphs_json", chart)]
  = head ++ chart ++ tail.
Proof. reflexivity. Qed.

Lemma render_index_html chart :
  render_template "index.html" [("graphs_json", chart)]
  = ret (page_embedding chart).
Proof.
  unfold render_template.
  change (find_template "index.html" templates) with (Some index_html).
  unfold index_html, page_embedding. rewrite render_around. reflexivity.
Qed.

Section Routes.

Context {L : Libs}.

Lemma index_after_provider out df out1 :
  get_real_time_data module_globals out = (Return df, out1) ->
  exists out2,
    index module_globals out
    = (Return (mkResponse 200 (Html (page_embedding "{}"))), out2).
Proof.
  intros H. destruct (plot_to_json_returns_sentinel df out1) as [out2 Hplot].
  exists out2.
  unfold index, except_Exception, try_except, bind.
  rewrite resolve_bound by reflexivity. rewrite H.
  rewrite resolve_bound by reflexivity. rewrite Hplot.
  rewrite resolve_bound by reflexivity. rewrite render_index_html.
  reflexivity.
Qed.

Lemma update_data_after_provider out df out1 :
  get_real_time_data module_globals out = (Return df, out1) ->
  exists out2,
    update_data module_globals out
    = (Return (mkResponse 200 (Json (JObj [("graphs_json", JStr "{}")]))), out2).
Proof.
  intros H. destruct (plot_to_json_returns_sentinel df out1) as [out2 Hplot].
  exists out2.
  unfold update_data, except_Exception, try_except, bind.
  rewrite resolve_bound by reflexivity. rewrite H.
  rewrite resolve_bound by reflexivity. rewrite Hplot.
  rewrite resolve_bound by reflexivity.
  reflexivity.
Qed.

End Routes.

Lemma update_data_installed out :
  update_data (L := installed) module_globals out
  = (Return (mkResponse 200 (Json (JObj [("graphs_json", JStr "{}")]))),
     (out ++ ["Error generating plot: name 'plotly' is not defined"])%list).
Proof. reflexivity. Qed.

Lemma serve_update_data_installed n out :
  fst (serve (update_data (L := installed) module_globals) n out)
  = repeat (Return (mkResponse 200 (Json (JObj [("graphs_json", JStr "{}")])))) n.
Proof.
  revert out. induction n as [| n IH]; intros out.
  - reflexivity.
  - cbn [serve]. rewrite update_data_installed.
    specialize (IH (out ++ ["Error generating plot: name 'plotly' is not defined"])%list).
    destruct (serve (update_data (L := installed) module_globals) n
                (out ++ ["Error generating plot: name 'plotly' is not defined"])%list)
      as [rs out2].
    cbn in *. rewrite IH. reflexivity.
Qed.

(** C2 (the code departs from the claim).  With the installed libraries,
    POST /update_data answers 200 with a JSON body whose [graphs_json] field
    is the empty-object text: the field is there, but it is not the chart of
    Sales 120000, Profit 30000, Customer Satisfaction 85. *)
Theorem update_data_payload_is_sentinel :
  update_data (L := installed) module_globals []
  = (Return (mkResponse 200 (Json (JObj [("graphs_json", JStr "{}")]))),
     ["Error generating plot: name 'plotly' is not defined"]) /\
  graphs_json_of (fst (update_data (L := installed) module_globals [])) = Some "{}" /\
  chart_text [CStr "Sales"; CStr "Profit"; CStr "Customer Satisfaction"]
             [CInt 120000; CInt 30000; CInt 85] <> "{}".
Proof.
  split; [| split].
  - reflexivity.
  - reflexivity.
  - apply sentinel_is_no_chart.
Qed.

(** C4 (the code departs from the claim).  With the installed libraries and
    no injected failure, GET / answers 200 with the page of [index.html], but
    the chart embedded in it is the empty-object text, which is the encoding
    of no figure: it has neither the [data] nor the [layout] field. *)
Theorem index_embeds_sentinel :
  index (L := installed) module_globals []
  = (Return (mkResponse 200 (Html (page_embedding "{}"))),
     ["Error generating plot: name 'plotly' is not defined"]) /\
  (forall fig, json_dumps (encode_figure fig) <> "{}") /\
  json_dumps (JObj []) = "{}".
Proof.
  split; [| split].
  - vm_compute. reflexivity.
  - apply sentinel_is_no_chart.
  - reflexivity.
Qed.

(** C5.  When building the table raises inside [get_real_time_data], so that
    its [except] branch runs, and [pd.DataFrame()] behaves as in pandas,
    GET / answers 200 with the empty-object chart embedded in the page, not
    500; the two diagnostics are printed. *)
Theorem index_survives_acquisition_failure {L : Libs} out e out1 :
  pd_DataFrame (Some data) out = (Raise e, out1) ->
  fallback_is_empty L ->
  index module_globals out
  = (Return (mkResponse 200 (Html (page_embedding "{}"))),
     (out1 ++ [("Error fetching data: " ++ str e)%string;
               "Error generating plot: DataFrame is empty"])%list).
Proof.
  intros Hfail Hfb.
  unfold index, except_Exception, try_except, bind.
  rewrite resolve_bound by reflexivity.
  rewrite (provider_falls_back out e out1 Hfail), Hfb.
  rewrite resolve_bound by reflexivity.
  rewrite (handler_replaces empty_frame _ _ _ (suite_empty empty_frame _ eq_refl)).
  rewrite resolve_bound by reflexivity. rewrite render_index_html.
  cbn [ret str]. rewrite <- app_assoc. reflexivity.
Qed.

Lemma index_survives_acquisition_failure_witness :
  index (L := unavailable) module_globals []
  = (Return (mkResponse 200 (Html (page_embedding "{}"))),
     ["Error fetching data: data source unavailable";
      "Error generating plot: DataFrame is empty"]).
Proof.
  exact (@index_survives_acquisition_failure unavailable []
           (OtherError "ConnectionError" "data source unavailable") []
           eq_refl unavailable_fallback).
Defined.

(** C7.  With the installed, deterministic provider, POST /update_data gives
    the same response whatever was printed before, and any number of
    requests served in a row all carry the same [graphs_json] payload as
    the first. *)
Theorem update_data_idempotent n out out' :
  fst (update_data (L := installed) module_globals out)
  = fst (update_data (L := installed) module_globals out') /\
  fst (serve (update_data (L := installed) module_globals) n out)
  = repeat (fst (update_data (L := installed) module_globals out)) n /\
  map graphs_json_of (fst (serve (update_data (L := installed) module_globals) n out))
  = repeat (graphs_json_of (fst (update_data (L := installed) module_globals out))) n.
Proof.
  rewrite serve_update_data_installed, !update_data_installed.
  cbn [fst]. rewrite map_repeat. repeat split.
Qed.

(** C10.  Provided [pd.DataFrame()] returns, POST /update_data answers 200
    with a [graphs_json] field whatever else the libraries do: its own
    [except] branch, the 500 answer with the [error] field, is never
    taken. *)
Theorem update_data_always_200 {L : Libs} out :
  fallback_returns L ->
  exists chart out1,
    update_data module_globals out
    = (Return (mkResponse 200 (Json (jsonify [("graphs_json", chart)]))), out1).
Proof.
  intros Hfb.
  destruct (provider_returns out Hfb) as (df & out1 & Hprov).
  destruct (update_data_after_provider out df out1 Hprov) as [out2 H].
  exists "{}", out2. exact H.
Qed.

Lemma update_data_always_200_witness :
  exists chart out1,
    update_data (L := installed) module_globals []
    = (Return (mkResponse 200 (Json (jsonify [("graphs_json", chart)]))), out1).
Proof.
  apply (@update_data_always_200 installed []).
  apply fallback_is_empty_returns. exact installed_fallback.
Defined.

(** * Further properties *)

(** ** Outcomes of the two routes *)

Section Outcomes.

Context {L : Libs}.

Lemma provider_fallback_raises out e1 out1 e2 out2 :
  pd_DataFrame (Some data) out = (Raise e1, out1) ->
  pd_DataFrame None (out1 ++ [("Error fetching data: " ++ str e1)%string])%list
  = (Raise e2, out2) ->
  get_real_time_data module_globals out = (Raise e2, out2).
Proof.
  intros H1 H2. rewrite (provider_falls_back out e1 out1 H1). exact H2.
Qed.

Lemma index_after_provider_raise out e out1 :
  get_real_time_data module_globals out = (Raise e, out1) ->
  index module_globals out
  = (Return (mkResponse 500 (Text ("Error loading dashboard: " ++ str e))), out1).
Proof.
  intros H. unfold index, except_Exception, try_except, bind.
  rewrite resolve_bound by reflexivity. rewrite H.
  rewrite resolve_bound by reflexivity. reflexivity.
Qed.

Lemma update_data_after_provider_raise out e out1 :
  get_real_time_data module_globals out = (Raise e, out1) ->
  update_data module_globals out
  = (Return (mkResponse 500
               (Json (JObj [("error", JStr ("Error updating data: " ++ str e))]))),
     out1).
Proof.
  intros H. unfold update_data, except_Exception, try_except, bind.
  rewrite resolve_bound by reflexivity. rewrite H.
  repeat rewrite resolve_bound by reflexivity. reflexivity.
Qed.

Lemma update_data_outcome out :
  exists out1,
    update_data module_globals out
    = (Return (mkResponse 200 (Json (JObj [("graphs_json", JStr "{}")]))), out1) \/
    exists e,
      update_data module_globals out
      = (Return (mkResponse 500
                   (Json (JObj [("error", JStr ("Error updating data: " ++ str e))]))),
         out1).
Proof.
  destruct (get_real_time_data module_globals out) as [[df | e] out1] eqn:Hprov.
  - destruct (update_data_after_provider out df out1 Hprov) as [out2 H].
    exists out2. left. exact H.
  - exists out1. right. exists e. apply update_data_after_provider_raise. exact Hprov.
Qed.

End Outcomes.

(** X1.  With the installed libraries, no valid table is ever serialized:
    for every non-empty table that has the [metric] and [value] columns,
    [plot_to_json] returns the empty-object text and prints the name error
    for [plotly]. *)
Theorem plot_to_json_valid_table_sentinel df names values out :
  valid_table df names values ->
  plot_to_json (L := installed) module_globals df out
  = (Return "{}", (out ++ [plotly_line])%list).
Proof.
  intros (Hempty & Hx & Hy).
  apply (handler_replaces (L := installed) df out (NameError "plotly") out).
  apply (suite_bar_returns (L := installed) df out
           (mkFigure names values "Business KPI Dashboard") out Hempty).
  unfold px_bar, installed, plotly_express_bar. rewrite Hx, Hy. reflexivity.
Qed.

Lemma plot_to_json_valid_table_sentinel_witness :
  valid_table two_row_table [CStr "Churn"; CStr "Revenue"] [CInt 4; CInt 990] /\
  plot_to_json (L := installed) module_globals two_row_table ["started"]
  = (Return "{}", ["started"; plotly_line]).
Proof.
  assert (H : valid_table two_row_table [CStr "Churn"; CStr "Revenue"] [CInt 4; CInt 990])
    by (repeat split).
  split.
  - exact H.
  - exact (plot_to_json_valid_table_sentinel two_row_table _ _ ["started"] H).
Defined.

(** X2.  Whatever the libraries do, GET / raises nothing: it answers either
    200 with the page around the empty-object chart, or 500 with the text
    [Error loading dashboard: ] followed by the message of the exception. *)
Theorem index_answers_200_or_500 {L : Libs} out :
  exists out1,
    index module_globals out
    = (Return (mkResponse 200 (Html (page_embedding "{}"))), out1) \/
    exists e,
      index module_globals out
      = (Return (mkResponse 500 (Text ("Error loading dashboard: " ++ str e))), out1).
Proof.
  destruct (get_real_time_data module_globals out) as [[df | e] out1] eqn:Hprov.
  - destruct (index_after_provider out df out1 Hprov) as [out2 H].
    exists out2. left. exact H.
  - exists out1. right. exists e. apply index_after_provider_raise. exact Hprov.
Qed.

(** X3.  Whatever the libraries do, POST /update_data raises nothing: it
    answers either 200 with [graphs_json] set to the empty-object text, or
    500 with an [error] field that starts with [Error updating data: ]. *)
Theorem update_data_answers_200_or_500 {L : Libs} out :
  exists r out1,
    update_data module_globals out = (Return r, out1) /\
    (r = mkResponse 200 (Json (jsonify [("graphs_json", "{}")])) \/
     exists e,
       r = mkResponse 500 (Json (jsonify [("error", "Error updating data: " ++ str e)]))).
Proof.
  destruct (update_data_outcome out) as (out1 & [H | (e & H)]).
  - eexists _, out1. split; [exact H |]. left. reflexivity.
  - eexists _, out1. split; [exact H |]. right. exists e. reflexivity.
Qed.

(** X4.  When building the table raises and the [pd.DataFrame()] of the
    provider's [except] branch raises too, the second exception leaves
    [get_real_time_data] and GET / answers 500 with its message; the first
    one was printed. *)
Theorem index_reports_fallback_failure {L : Libs} out e1 out1 e2 out2 :
  pd_DataFrame (Some data) out = (Raise e1, out1) ->
  pd_DataFrame None (out1 ++ [("Error fetching data: " ++ str e1)%string])%list
  = (Raise e2, out2) ->
  index module_globals out
  = (Return (mkResponse 500 (Text ("Error loading dashboard: " ++ str e2))), out2).
Proof.
  intros H1 H2. apply index_after_provider_raise.
  exact (provider_fallback_raises out e1 out1 e2 out2 H1 H2).
Qed.

Lemma index_reports_fallback_failure_witness :
  index (L := broken) module_globals []
  = (Return (mkResponse 500 (Text "Error loading dashboard: pandas is unusable")),
     ["Error fetching data: data source unavailable"]).
Proof.
  exact (@index_reports_fallback_failure broken []
           (OtherError "ConnectionError" "data source unavailable") []
           (OtherError "RuntimeError" "pandas is unusable")
           ["Error fetching data: data source unavailable"]
           eq_refl eq_refl).
Defined.

(** X5.  In the same situation POST /update_data answers 500 with the JSON
    envelope whose [error] field carries the message of the second
    exception. *)
Theorem update_data_reports_fallback_failure {L : Libs} out e1 out1 e2 out2 :
  pd_DataFrame (Some data) out = (Raise e1, out1) ->
  pd_DataFrame None (out1 ++ [("Error fetching data: " ++ str e1)%string])%list
  = (Raise e2, out2) ->
  update_data module_globals out
  = (Return (mkResponse 500
               (Json (jsonify [("error", "Error updating data: " ++ str e2)]))),
     out2).
Proof.
  intros H1 H2. apply update_data_after_provider_raise.
  exact (provider_fallback_raises out e1 out1 e2 out2 H1 H2).
Qed.

Lemma update_data_reports_fallback_failure_witness :
  update_data (L := broken) module_globals []
  = (Return (mkResponse 500
               (Json (JObj [("error", JStr "Error updating data: pandas is unusable")]))),
     ["Error fetching data: data source unavailable"]).
Proof.
  exact (@update_data_reports_fallback_failure broken []
           (OtherError "ConnectionError" "data source unavailable") []
           (OtherError "RuntimeError" "pandas is unusable")
           ["Error fetching data: data source unavailable"]
           eq_refl eq_refl).
Defined.

(** ** What the requests leave on standard output *)

Lemma index_installed out :
  index (L := installed) module_globals out
  = (Return (mkResponse 200 (Html (page_embedding "{}"))), (out ++ [plotly_line])%list).
Proof.
  unfold index, except_Exception, try_except, bind.
  rewrite resolve_bound by reflexivity.
  rewrite (provider_acquires (L := installed) out kpi_table out eq_refl).
  rewrite resolve_bound by reflexivity.
  rewrite (handler_replaces (L := installed) kpi_table out (NameError "plotly") out eq_refl).
  rewrite resolve_bound by reflexivity. rewrite render_index_html. reflexivity.
Qed.

Lemma serve_appends handler r line :
  (forall out, handler out = (Return r, (out ++ [line])%list)) ->
  forall n out,
    serve handler n out = (repeat (Return r) n, (out ++ repeat line n)%list).
Proof.
  intros Hstep n. induction n as [| n IH]; intros out.
  - cbn. rewrite app_nil_r. reflexivity.
  - cbn [serve repeat]. rewrite Hstep, IH.
    rewrite <- app_assoc. reflexivity.
Qed.

(** X6.  With the installed libraries every request prints the name error
    for [plotly] once and removes nothing: after [n] requests to either
    route, standard output is what it was, followed by [n] copies of that
    line. *)
Theorem requests_print_one_line_each n out :
  snd (serve (update_data (L := installed) module_globals) n out)
  = (out ++ repeat plotly_line n)%list /\
  snd (serve (index (L := installed) module_globals) n out)
  = (out ++ repeat plotly_line n)%list.
Proof.
  split.
  - rewrite (serve_appends _ _ plotly_line update_data_installed). reflexivity.
  - rewrite (serve_appends _ _ plotly_line index_installed). reflexivity.
Qed.

(** X7.  The answers of both routes do not depend on the charting library:
    two behaviours of [px.bar], with the same [pd.DataFrame], give the same
    response from the same state. *)
Theorem responses_ignore_px_bar pd bar1 bar2 out :
  fst (index (L := mkLibs pd bar1) module_globals out)
  = fst (index (L := mkLibs pd bar2) module_globals out) /\
  fst (update_data (L := mkLibs pd bar1) module_globals out)
  = fst (update_data (L := mkLibs pd bar2) module_globals out).
Proof.
  assert (Hsame : get_real_time_data (L := mkLibs pd bar1) module_globals out
                  = get_real_time_data (L := mkLibs pd bar2) module_globals out)
    by reflexivity.
  destruct (get_real_time_data (L := mkLibs pd bar2) module_globals out)
    as [[df | e] out1] eqn:H2.
  - destruct (index_after_provider (L := mkLibs pd bar1) out df out1 Hsame) as [o1 Hi1].
    destruct (index_after_provider (L := mkLibs pd bar2) out df out1 H2) as [o2 Hi2].
    destruct (update_data_after_provider (L := mkLibs pd bar1) out df out1 Hsame)
      as [o3 Hu1].
    destruct (update_data_after_provider (L := mkLibs pd bar2) out df out1 H2)
      as [o4 Hu2].
    rewrite Hi1, Hi2, Hu1, Hu2. split; reflexivity.
  - rewrite (index_after_provider_raise (L := mkLibs pd bar1) out e out1 Hsame).
    rewrite (index_after_provider_raise (L := mkLibs pd bar2) out e out1 H2).
    rewrite (update_data_after_provider_raise (L := mkLibs pd bar1) out e out1 Hsame).
    rewrite (update_data_after_provider_raise (L := mkLibs pd bar2) out e out1 H2).
    split; reflexivity.
Qed.

(** ** The client script *)

Section ClientFacts.

Variable JSON_parse : string -> option jsval.

Lemma on_data_singleton d effects :
  on_data JSON_parse d = inr effects -> exists e, effects = [e].
Proof.
  unfold on_data. intros H.
  destruct (member d "error") as [err | error]; [discriminate |].
  destruct (truthy error).
  - injection H as <-. eexists. reflexivity.
  - destruct (member d "graphs_json") as [err | text]; [discriminate |].
    destruct (JSON_parse (to_string text)) as [g |]; [| discriminate].
    destruct (member g "data") as [err | traces]; [discriminate |].
    destruct (member g "layout") as [err | layout]; [discriminate |].
    injection H as <-. eexists. reflexivity.
Qed.

Lemma on_data_error_envelope message :
  message <> EmptyString ->
  on_data JSON_parse (of_json (jsonify [("error", message)]))
  = inr [Alert (JsStr message)].
Proof.
  intros Hne. unfold on_data. cbn.
  destruct (String.eqb message EmptyString) eqn:Heq.
  - apply String.eqb_eq in Heq. contradiction.
  - reflexivity.
Qed.

Lemma alert_on_error_envelope status message :
  message <> EmptyString ->
  updateDashboard JSON_parse
    (Answered (mkResponse status (Json (jsonify [("error", message)]))))
  = [Alert (JsStr message)].
Proof.
  intros Hne. unfold updateDashboard, response_json. cbn [payload].
  rewrite (on_data_error_envelope message Hne). reflexivity.
Qed.

End ClientFacts.

(** X8.  Whatever [JSON.parse] does and however the request settles,
    [updateDashboard] does exactly one thing: it redraws the chart, or shows
    an alert, or writes one error to the console. *)
Theorem updateDashboard_one_effect JSON_parse answer :
  exists e, updateDashboard JSON_parse answer = [e].
Proof.
  destruct answer as [| r]; cbn.
  - eexists. reflexivity.
  - destruct (response_json JSON_parse r) as [err | d].
    + eexists. reflexivity.
    + destruct (on_data JSON_parse d) as [err | effects] eqn:H.
      * eexists. reflexivity.
      * exact (on_data_singleton JSON_parse d effects H).
Qed.

(** X9.  An answer whose JSON body has a non-empty [error] string makes
    [updateDashboard] show that string in an alert and nothing else: the
    chart is not redrawn, [JSON.parse] is not consulted and the status of
    the answer plays no part. *)
Theorem updateDashboard_alerts_error JSON_parse status message :
  message <> EmptyString ->
  updateDashboard JSON_parse
    (Answered (mkResponse status (Json (jsonify [("error", message)]))))
  = [Alert (JsStr message)].
Proof.
  apply alert_on_error_envelope.
Qed.

Lemma updateDashboard_alerts_error_witness :
  updateDashboard parse_empty_object
    (Answered (mkResponse 500 (Json (jsonify [("error", "Error updating data: boom")]))))
  = [Alert (JsStr "Error updating data: boom")].
Proof.
  apply (updateDashboard_alerts_error parse_empty_object 500 "Error updating data: boom").
  discriminate.
Defined.

(** X10.  An answer whose JSON body has a [graphs_json] string and no
    [error] makes [updateDashboard] parse that string and redraw the
    [dashboard] container with the [data] and [layout] members of the
    parsed value. *)
Theorem updateDashboard_draws_parsed_chart JSON_parse status chart g traces layout :
  JSON_parse chart = Some g ->
  member g "data" = inr traces ->
  member g "layout" = inr layout ->
  updateDashboard JSON_parse
    (Answered (mkResponse status (Json (jsonify [("graphs_json", chart)]))))
  = [NewPlot "dashboard" traces layout].
Proof.
  intros Hparse Hdata Hlayout.
  unfold updateDashboard, response_json, on_data. cbn.
  rewrite Hparse, Hdata, Hlayout. reflexivity.
Qed.

Lemma updateDashboard_draws_parsed_chart_witness :
  updateDashboard parse_empty_object
    (Answered (mkResponse 200 (Json (jsonify [("graphs_json", "{}")]))))
  = [NewPlot "dashboard" JsUndefined JsUndefined].
Proof.
  exact (updateDashboard_draws_parsed_chart parse_empty_object 200 "{}" (JsObj [])
           JsUndefined JsUndefined eq_refl eq_refl eq_refl).
Defined.

(** X11.  An [error] field that is the empty string is not shown: the
    condition of the [if] fails on it, the script goes on to parse the
    missing [graphs_json], and since [JSON.parse] rejects the text
    [undefined] the only effect is a syntax error on the console. *)
Theorem updateDashboard_empty_error_not_alerted JSON_parse status :
  JSON_parse "undefined" = None ->
  updateDashboard JSON_parse
    (Answered (mkResponse status (Json (jsonify [("error", EmptyString)]))))
  = [ConsoleError console_label JsSyntaxError].
Proof.
  intros Hparse. unfold updateDashboard, response_json, on_data. cbn.
  rewrite Hparse. reflexivity.
Qed.

Lemma updateDashboard_empty_error_not_alerted_witness :
  updateDashboard parse_empty_object
    (Answered (mkResponse 500 (Json (jsonify [("error", EmptyString)]))))
  = [ConsoleError console_label JsSyntaxError].
Proof.
  exact (updateDashboard_empty_error_not_alerted parse_empty_object 500 eq_refl).
Defined.

(** X12.  Server and client together: given that [JSON.parse] reads the
    text of the empty object as the empty object, a refresh answered by
    POST /update_data either redraws the chart with [undefined] for both
    data and layout, or alerts [Error updating data: ] and the message of
    the exception.  It never draws a series. *)
Theorem refresh_never_draws_series {L : Libs} JSON_parse out r out1 :
  JSON_parse "{}" = Some (JsObj []) ->
  update_data module_globals out = (Return r, out1) ->
  updateDashboard JSON_parse (Answered r) = [NewPlot "dashboard" JsUndefined JsUndefined] \/
  exists e,
    updateDashboard JSON_parse (Answered r)
    = [Alert (JsStr ("Error updating data: " ++ str e))].
Proof.
  intros Hparse Hrun.
  destruct (update_data_outcome out) as (out2 & [H | (e & H)]);
    rewrite H in Hrun; injection Hrun as <- _.
  - left. unfold updateDashboard, response_json, on_data. cbn.
    rewrite Hparse. reflexivity.
  - right. exists e.
    assert (Hne : ("Error updating data: " ++ str e)%string <> EmptyString)
      by discriminate.
    exact (alert_on_error_envelope JSON_parse 500 _ Hne).
Qed.

Lemma refresh_never_draws_series_witness :
  updateDashboard parse_empty_object
    (Answered (mkResponse 200 (Json (JObj [("graphs_json", JStr "{}")]))))
  = [NewPlot "dashboard" JsUndefined JsUndefined] \/
  exists e,
    updateDashboard parse_empty_object
      (Answered (mkResponse 200 (Json (JObj [("graphs_json", JStr "{}")]))))
    = [Alert (JsStr ("Error updating data: " ++ str e))].
Proof.
  exact (@refresh_never_draws_series installed parse_empty_object []
           (mkResponse 200 (Json (JObj [("graphs_json", JStr "{}")])))
           [plotly_line] eq_refl (update_data_installed [])).
Defined.
